(** * feedback_scanner.py: the FBLA feedback report and its printed form

    A shallow embedding of [src/feedback_scanner.py].  The script builds one
    literal nested dictionary, prints three progress lines with pauses in
    between, and, when run as a script, prints the dictionary as indented
    JSON between banner lines.

    Python values are embedded as a small inductive type (strings, lists,
    insertion-ordered dictionaries); [print] and [time.sleep] act on an
    explicit world (the text written to standard output and the seconds
    slept) threaded by a state-and-exception monad.  A second world, in
    module [Io], has the stream behind standard output, which may refuse a
    write; the exit status of the process is stated there. *)

From Stdlib Require Import String Ascii List ZArith Lia Bool.
From ExtLib Require Import Structures.Monad Structures.MonadState Structures.MonadExc.
From ExtLib Require Import Data.Monads.StateMonad Data.Monads.EitherMonad
  Data.Monads.OptionMonad.
Import ListNotations.
Import MonadNotation.

Local Open Scope string_scope.
Local Open Scope monad_scope.

#[local] Existing Instance Monad_stateT.

Set Warnings "-register-all".

(* ===================================================================== *)
(** ** Characters the program text needs but a literal cannot hold *)
(* ===================================================================== *)

(** Line feed, the character [print] ends every line with. *)
Definition LF : ascii := "010"%char.

(** The double quote that delimits JSON strings. *)
Definition DQUOTE : ascii := "034"%char.

(** The backslash that starts a JSON escape. *)
Definition BACKSLASH : ascii := "092"%char.

(** The text of one line feed. *)
Definition nl : string := String LF EmptyString.

(* ===================================================================== *)
(** ** Python values and built-in operations *)
(* ===================================================================== *)

Module Py.

(** The values the script builds: [str], [list] and [dict] with [str] keys.
    A dictionary keeps its items in insertion order, which is the order
    [json.dumps] writes them in, so it is an association list. *)
Inductive value : Type :=
| Str (s : string)
| List (elems : list value)
| Dict (items : list (string * value)).

(** Uncaught exceptions end the process. *)
Inductive exn : Type :=
| ValueError (msg : string)
| KeyError (key : string)
| TypeError (msg : string).

(** What the process has done so far: the text written to standard output
    and the total number of seconds spent in [time.sleep]. *)
Record world : Type := mkWorld {
  stdout : string;
  slept : Z
}.

(** Statements run in a world and either finish or raise. *)
Definition py : Type -> Type := stateT world (sum exn).

(** [s * n] on a string: [n] copies of [s], none when [n <= 0]. *)
Definition str_mul (s : string) (n : Z) : string :=
  String.concat "" (repeat s (Z.to_nat n)).

(** [print(s)]: writes [s] and a line feed to standard output, on a stream
    that takes every write.  [Io.print] below is [print] on a stream that
    may refuse. *)
Definition print (s : string) : py unit :=
  w <- get ;;
  put (mkWorld (stdout w ++ s ++ nl) (slept w)).

(** [time.sleep(secs)]: rejects a negative length, otherwise blocks for
    [secs] seconds. *)
Definition sleep (secs : Z) : py unit :=
  if (secs <? 0)%Z
  then raise (ValueError "sleep length must be non-negative")
  else w <- get ;; put (mkWorld (stdout w) (slept w + secs)).

(** The value of the first item with key [k], if any. *)
Fixpoint assoc (k : string) (items : list (string * value)) : option value :=
  match items with
  | [] => None
  | (k', v) :: rest => if String.eqb k k' then Some v else assoc k rest
  end.

(** [d[k]] for a string [k]: the value stored under [k]; [KeyError] when
    [k] is absent, [TypeError] when [d] is a list or a string. *)
Definition getitem (d : value) (k : string) : sum exn value :=
  match d with
  | Dict items =>
      match assoc k items with
      | Some v => inr v
      | None => inl (KeyError k)
      end
  | List _ => inl (TypeError "list indices must be integers or slices, not str")
  | Str _ => inl (TypeError "string indices must be integers, not 'str'")
  end.

(** [len(v)]. *)
Definition len (v : value) : nat :=
  match v with
  | Str s => String.length s
  | List elems => List.length elems
  | Dict items => List.length items
  end.

End Py.

Import Py.

(* ===================================================================== *)
(** ** The [json] module: [json.dumps(obj, indent=n)] *)
(* ===================================================================== *)

Module Json.

(** Lower-case hexadecimal digit of a number below 16. *)
Definition hex_digit (n : nat) : ascii :=
  match n with
  | 0 => "0" | 1 => "1" | 2 => "2" | 3 => "3" | 4 => "4"
  | 5 => "5" | 6 => "6" | 7 => "7" | 8 => "8" | 9 => "9"
  | 10 => "a" | 11 => "b" | 12 => "c" | 13 => "d" | 14 => "e"
  | _ => "f"
  end%char.

(** [ESCAPE_DCT] and the fallback of [encode_basestring_ascii]: the text
    written for one character.  The quote and the backslash and every
    character outside the printable range [' '..'~'] are escaped; the others
    stand for themselves. *)
Definition escape_char (c : ascii) : string :=
  let n := nat_of_ascii c in
  if Ascii.eqb c DQUOTE then String BACKSLASH (String DQUOTE "")
  else if Ascii.eqb c BACKSLASH then String BACKSLASH (String BACKSLASH "")
  else if Nat.eqb n 8 then String BACKSLASH "b"
  else if Nat.eqb n 12 then String BACKSLASH "f"
  else if Nat.eqb n 10 then String BACKSLASH "n"
  else if Nat.eqb n 13 then String BACKSLASH "r"
  else if Nat.eqb n 9 then String BACKSLASH "t"
  else if (Nat.ltb n 32 || Nat.ltb 126 n)%bool
       then String BACKSLASH
              (String "u" (String "0" (String "0"
                (String (hex_digit (n / 16)) (String (hex_digit (n mod 16)) "")))))
  else String c "".

Fixpoint escape (s : string) : string :=
  match s with
  | EmptyString => ""
  | String c rest => escape_char c ++ escape rest
  end.

(** [encode_basestring_ascii(s)]: the escaped text between double quotes. *)
Definition encode_basestring_ascii (s : string) : string :=
  String DQUOTE (escape s ++ String DQUOTE "").

(** The loop of [_iterencode_list] over the elements: every element but
    the first is preceded by the separator, and each is written by
    [encode]. *)
Definition iterencode_list_loop (encode : value -> string) (separator : string)
  : bool -> list value -> string :=
  fix chunks (first : bool) (lst : list value) {struct lst} : string :=
    match lst with
    | [] => ""
    | v :: rest =>
        (if first then "" else separator) ++ encode v ++ chunks false rest
    end.

(** The loop of [_iterencode_dict] over the items, in insertion order:
    every item but the first is preceded by the separator, and each is
    written as its key, the key separator [": "] and its value. *)
Definition iterencode_dict_loop (encode : value -> string) (item_separator : string)
  : bool -> list (string * value) -> string :=
  fix chunks (first : bool) (items : list (string * value)) {struct items} : string :=
    match items with
    | [] => ""
    | (k, v) :: rest =>
        (if first then "" else item_separator)
        ++ encode_basestring_ascii k ++ ": " ++ encode v ++ chunks false rest
    end.

(** [_iterencode] with an indent string, at nesting depth [level].  The
    item separator is [","] and the key separator [": "], the defaults that
    go with an indent.  An empty list is ["[]"] and an empty dictionary
    ["{}"]; otherwise every element or item starts on a line of its own,
    one indent deeper, and the closing bracket is back at [level].  This is
    the text the encoder returns when it returns: the recursion limit of
    the interpreter, which makes the encoder raise on values nested about a
    thousand deep, is not part of the model. *)
Fixpoint iterencode (indent : string) (level : nat) (o : value) {struct o} : string :=
  match o with
  | Str s => encode_basestring_ascii s
  | List [] => "[]"
  | List lst =>
      let newline_indent := nl ++ str_mul indent (Z.of_nat (S level)) in
      let separator := "," ++ newline_indent in
      "[" ++ newline_indent
      ++ iterencode_list_loop (iterencode indent (S level)) separator true lst
      ++ nl ++ str_mul indent (Z.of_nat level) ++ "]"
  | Dict [] => "{}"
  | Dict items =>
      let newline_indent := nl ++ str_mul indent (Z.of_nat (S level)) in
      let item_separator := "," ++ newline_indent in
      "{" ++ newline_indent
      ++ iterencode_dict_loop (iterencode indent (S level)) item_separator true items
      ++ nl ++ str_mul indent (Z.of_nat level) ++ "}"
  end.

(** [json.dumps(obj, indent=n)] for an integer [n]: the indent string is
    [n] spaces. *)
Definition dumps (obj : value) (indent : Z) : string :=
  iterencode (str_mul " " indent) 0 obj.

(** *** Reading the text back: [json.loads] *)

(** Modelled from the spec: the script never parses its output, so the
    parser the round trip needs is not in the source.  The definitions from
    here to [loads] are the reader of the [json] module the script imports,
    [json.loads], for the values of this file: strings, arrays and
    objects.  [None] stands for [JSONDecodeError]; numbers and the literals
    [true], [false] and [null] are no [value] and are refused as well.
    [is_whitespace] is the character class of [WHITESPACE]. *)
Definition is_whitespace (c : ascii) : bool :=
  let n := nat_of_ascii c in
  (Nat.eqb n 32 || Nat.eqb n 9 || Nat.eqb n 10 || Nat.eqb n 13)%bool.

(** Modelled from the spec: [WHITESPACE.match(s, idx).end()] of the
    decoder, which the source does not call: the text after leading
    blanks. *)
Fixpoint skip_ws (s : string) : string :=
  match s with
  | String c rest => if is_whitespace c then skip_ws rest else s
  | EmptyString => s
  end.

(** Modelled from the spec: the value of a hexadecimal digit of a
    four-digit [u] escape, in either case; part of the decoder, which the source
    does not call. *)
Definition hex_value (c : ascii) : option nat :=
  let n := nat_of_ascii c in
  if (Nat.leb 48 n && Nat.leb n 57)%bool then Some (n - 48)
  else if (Nat.leb 97 n && Nat.leb n 102)%bool then Some (n - 87)
  else if (Nat.leb 65 n && Nat.leb n 70)%bool then Some (n - 55)
  else None.

(** Modelled from the spec: the [BACKSLASH] table of the decoder, which
    the source does not call: the character a one-letter escape stands
    for. *)
Definition unescape_char (c : ascii) : option ascii :=
  if Ascii.eqb c DQUOTE then Some DQUOTE
  else if Ascii.eqb c BACKSLASH then Some BACKSLASH
  else if Ascii.eqb c "/" then Some "/"%char
  else if Ascii.eqb c "b" then Some "008"%char
  else if Ascii.eqb c "f" then Some "012"%char
  else if Ascii.eqb c "n" then Some "010"%char
  else if Ascii.eqb c "r" then Some "013"%char
  else if Ascii.eqb c "t" then Some "009"%char
  else None.

(** Modelled from the spec: [scanstring] in strict mode, started after the
    opening quote.  It returns the decoded string and the text after the
    closing quote.  A raw control character, an unknown escape and an
    unterminated string are errors; so is an escape for a code point above
    255, which a character of this model cannot hold. *)
Fixpoint scanstring (s : string) : option (string * string) :=
  match s with
  | EmptyString => None
  | String c rest =>
      if Ascii.eqb c DQUOTE then Some ("", rest)
      else if Ascii.eqb c BACKSLASH then
        match rest with
        | EmptyString => None
        | String e rest1 =>
            if Ascii.eqb e "u" then
              match rest1 with
              | String h1 (String h2 (String h3 (String h4 rest2))) =>
                  match hex_value h1, hex_value h2, hex_value h3, hex_value h4 with
                  | Some d1, Some d2, Some d3, Some d4 =>
                      if (Nat.eqb d1 0 && Nat.eqb d2 0)%bool then
                        match scanstring rest2 with
                        | Some (str, after) =>
                            Some (String (ascii_of_nat (16 * d3 + d4)) str, after)
                        | None => None
                        end
                      else None
                  | _, _, _, _ => None
                  end
              | _ => None
              end
            else
              match unescape_char e with
              | Some c' =>
                  match scanstring rest1 with
                  | Some (str, after) => Some (String c' str, after)
                  | None => None
                  end
              | None => None
              end
        end
      else if Nat.ltb (nat_of_ascii c) 32 then None
      else
        match scanstring rest with
        | Some (str, after) => Some (String c str, after)
        | None => None
        end
  end.

(** Modelled from the spec: [d[k] = v] on the items of a dictionary, which
    the decoder uses to build its result and the source never does: an
    existing key keeps its place and takes the new value, a new key goes to
    the end. *)
Fixpoint setitem (k : string) (v : value) (items : list (string * value))
  : list (string * value) :=
  match items with
  | [] => [(k, v)]
  | (k', v') :: rest =>
      if String.eqb k k' then (k', v) :: rest else (k', v') :: setitem k v rest
  end.

(** Modelled from the spec: [dict(pairs)], the dictionary the decoder
    makes of the items of an object. *)
Definition dict_of_pairs (pairs : list (string * value)) : list (string * value) :=
  fold_left (fun d kv => setitem (fst kv) (snd kv) d) pairs [].

(** Modelled from the spec: [scan_once], [JSONArray] and [JSONObject] of the
    decoder.  [scan_once] reads one value at the start of the text;
    [array_loop] is the loop of [JSONArray], at an element; [object_loop] is
    the loop of [JSONObject], after the opening quote of a key.  Each
    returns what it read and the text after it.  The recursion of the three
    is bounded by [fuel]. *)
Fixpoint scan_once (fuel : nat) (s : string) {struct fuel} : option (value * string) :=
  match fuel with
  | 0 => None
  | S fuel' =>
      match s with
      | EmptyString => None
      | String c rest =>
          if Ascii.eqb c DQUOTE then
            '(str, after) <- scanstring rest ;;
            ret (Str str, after)
          else if Ascii.eqb c "{" then
            match skip_ws rest with
            | String c1 rest1 =>
                if Ascii.eqb c1 "}" then ret (Dict [], rest1)
                else if Ascii.eqb c1 DQUOTE then
                  '(pairs, after) <- object_loop fuel' rest1 ;;
                  ret (Dict (dict_of_pairs pairs), after)
                else None
            | EmptyString => None
            end
          else if Ascii.eqb c "[" then
            match skip_ws rest with
            | String c1 rest1 =>
                if Ascii.eqb c1 "]" then ret (List [], rest1)
                else
                  '(elems, after) <- array_loop fuel' (String c1 rest1) ;;
                  ret (List elems, after)
            | EmptyString => None
            end
          else None
      end
  end

with array_loop (fuel : nat) (s : string) {struct fuel} : option (list value * string) :=
  match fuel with
  | 0 => None
  | S fuel' =>
      '(v, after) <- scan_once fuel' s ;;
      match skip_ws after with
      | String c rest =>
          if Ascii.eqb c "]" then ret ([v], rest)
          else if Ascii.eqb c "," then
            '(elems, after') <- array_loop fuel' (skip_ws rest) ;;
            ret (v :: elems, after')
          else None
      | EmptyString => None
      end
  end

with object_loop (fuel : nat) (s : string) {struct fuel}
  : option (list (string * value) * string) :=
  match fuel with
  | 0 => None
  | S fuel' =>
      '(key, after_key) <- scanstring s ;;
      match skip_ws after_key with
      | String colon rest =>
          if Ascii.eqb colon ":" then
            '(v, after) <- scan_once fuel' (skip_ws rest) ;;
            match skip_ws after with
            | String c rest' =>
                if Ascii.eqb c "}" then ret ([(key, v)], rest')
                else if Ascii.eqb c "," then
                  match skip_ws rest' with
                  | String q rest'' =>
                      if Ascii.eqb q DQUOTE then
                        '(pairs, after') <- object_loop fuel' rest'' ;;
                        ret ((key, v) :: pairs, after')
                      else None
                  | EmptyString => None
                  end
                else None
            | EmptyString => None
            end
          else None
      | EmptyString => None
      end
  end.

(** Modelled from the spec: [json.loads(s)].  One value, blanks allowed
    before and after it, and nothing else.  The decoder gets one unit of
    fuel per character of the text and one more. *)
Definition loads (s : string) : option value :=
  '(obj, after) <- scan_once (S (String.length s)) (skip_ws s) ;;
  match skip_ws after with
  | EmptyString => ret obj
  | String _ _ => None
  end.

End Json.

(* ===================================================================== *)
(** ** The script *)
(* ===================================================================== *)

(** The dictionary literal of [get_fbla_feedback_report]. *)
Definition report : value :=
  Dict [
    ("metadata", Dict [
      ("source", Str "Reddit, FBLA Connect, Member Forums");
      ("report_date", Str "2026-01-03");
      ("search_categories",
         List [Str "Engagement"; Str "Events"; Str "Judging"; Str "Logistics"])
    ]);
    ("findings", List [
      Dict [
        ("category", Str "Event Engagement");
        ("issue", Str "Disorganized Opening/Closing ceremonies");
        ("feedback", Str "Members feel ceremonies are often too loud or chaotic, leading to low engagement.");
        ("sentiment", Str "Negative")
      ];
      Dict [
        ("category", Str "Competition");
        ("issue", Str "Judging Inconsistency");
        ("feedback", Str "Concerns about judges not following rubrics strictly or being distracted by devices.");
        ("sentiment", Str "Critical")
      ];
      Dict [
        ("category", Str "Networking");
        ("issue", Str "Chaotic Pin Trading");
        ("feedback", Str "Pin trading is highly popular but often blocks hallways or lacks a designated system.");
        ("sentiment", Str "Mixed")
      ];
      Dict [
        ("category", Str "Logistics");
        ("issue", Str "Venue Navigation");
        ("feedback", Str "Large conference venues can be confusing, making it hard to find competition rooms on time.");
        ("sentiment", Str "Negative")
      ]
    ]);
    ("recommendations", List [
      Str "Implement a 'Ceremony Focus Mode' to reward attention.";
      Str "Create a 'Digital Pin Marketplace' to supplement physical trading.";
      Str "Provide real-time 'Wayfinding' for ceremony/competition rooms."
    ])
  ].

(** [get_fbla_feedback_report()]: three progress lines, a one-second pause
    after each, then the report. *)
Definition get_fbla_feedback_report : py value :=
  print "Initializng FBLA Feedback Scanner v1.0..." ;;
  sleep 1 ;;
  print "Scanning r/FBLA and FBLA Connect discussions..." ;;
  sleep 1 ;;
  print "Extracting key pain points and engagement metrics..." ;;
  sleep 1 ;;
  ret report.

(** The block under [if __name__ == "__main__":]. *)
Definition main : py unit :=
  results <- get_fbla_feedback_report ;;
  print (nl ++ str_mul "=" 40) ;;
  print "FBLA MEMBER ENGAGEMENT ANALYSIS REPORT" ;;
  print (str_mul "=" 40) ;;
  print (Json.dumps results 2) ;;
  print (str_mul "=" 40) ;;
  print (nl ++ "REPORT COMPLETE: Ready for Judge Review.").

(** The module body: the function definition has no effect of its own, and
    the main block runs only when the module is the script being run. *)
Definition module_body (name : string) : py unit :=
  if String.eqb name "__main__" then main else ret tt.

(** A process that has written nothing and slept for no time yet. *)
Definition fresh : world := mkWorld "" 0.

(** Running the file as a script, in a given world. *)
Definition run_script (w : world) : sum exn (unit * world) :=
  runStateT (module_body "__main__") w.

(* ===================================================================== *)
(** ** Vocabulary of the statements *)
(* ===================================================================== *)

(** [m], run in [w], finishes and returns [r]. *)
Definition returns {A : Type} (m : py A) (w : world) (r : A) : Prop :=
  exists w', runStateT m w = inr (r, w').

(** The text made of the given lines, each ended by a line feed. *)
Fixpoint unlines (ls : list string) : string :=
  match ls with
  | [] => ""
  | l :: rest => l ++ nl ++ unlines rest
  end.

(** The lines of a text, as [str.splitlines] cuts them at line feeds. *)
Fixpoint lines (s : string) : list string :=
  match s with
  | EmptyString => []
  | String c rest =>
      if Ascii.eqb c LF then "" :: lines rest
      else
        match lines rest with
        | [] => [String c ""]
        | l :: ls => String c l :: ls
        end
  end.

(** A line that is not empty. *)
Definition nonblank (l : string) : bool :=
  negb (String.eqb l "").

(** A banner: some character repeated 40 times. *)
Definition banner_line (l : string) : Prop :=
  exists c : ascii, l = string_of_list_ascii (repeat c 40).

(** The layout of standard output with the banner printed twice in a row
    ahead of the title: three progress lines, the banner twice, a title, the
    lines of the body, a completion line, and nothing else. *)
Definition banner_twice_layout (body : string) (ls : list string) : Prop :=
  exists p1 p2 p3 banner title completion : string,
    banner_line banner /\
    ls = ([p1; p2; p3; banner; banner; title] ++ lines body ++ [completion])%list.

(** A JSON string token of a text without special characters. *)
Definition quoted (s : string) : string :=
  String DQUOTE (s ++ String DQUOTE "").

(** The progress lines of the generator. *)
Definition progress_lines : list string := [
  "Initializng FBLA Feedback Scanner v1.0...";
  "Scanning r/FBLA and FBLA Connect discussions...";
  "Extracting key pain points and engagement metrics..."
].

(** The banner of the script. *)
Definition banner : string := "========================================".

Definition title_line : string := "FBLA MEMBER ENGAGEMENT ANALYSIS REPORT".

Definition completion_line : string := "REPORT COMPLETE: Ready for Judge Review.".

(** The report as indented text, line by line: two spaces per nesting
    level, keys in the order of the literal, elements in list order. *)
Definition report_lines : list string := [
  "{";
  "  " ++ quoted "metadata" ++ ": {";
  "    " ++ quoted "source" ++ ": " ++ quoted "Reddit, FBLA Connect, Member Forums" ++ ",";
  "    " ++ quoted "report_date" ++ ": " ++ quoted "2026-01-03" ++ ",";
  "    " ++ quoted "search_categories" ++ ": [";
  "      " ++ quoted "Engagement" ++ ",";
  "      " ++ quoted "Events" ++ ",";
  "      " ++ quoted "Judging" ++ ",";
  "      " ++ quoted "Logistics";
  "    ]";
  "  },";
  "  " ++ quoted "findings" ++ ": [";
  "    {";
  "      " ++ quoted "category" ++ ": " ++ quoted "Event Engagement" ++ ",";
  "      " ++ quoted "issue" ++ ": " ++ quoted "Disorganized Opening/Closing ceremonies" ++ ",";
  "      " ++ quoted "feedback" ++ ": "
    ++ quoted "Members feel ceremonies are often too loud or chaotic, leading to low engagement." ++ ",";
  "      " ++ quoted "sentiment" ++ ": " ++ quoted "Negative";
  "    },";
  "    {";
  "      " ++ quoted "category" ++ ": " ++ quoted "Competition" ++ ",";
  "      " ++ quoted "issue" ++ ": " ++ quoted "Judging Inconsistency" ++ ",";
  "      " ++ quoted "feedback" ++ ": "
    ++ quoted "Concerns about judges not following rubrics strictly or being distracted by devices." ++ ",";
  "      " ++ quoted "sentiment" ++ ": " ++ quoted "Critical";
  "    },";
  "    {";
  "      " ++ quoted "category" ++ ": " ++ quoted "Networking" ++ ",";
  "      " ++ quoted "issue" ++ ": " ++ quoted "Chaotic Pin Trading" ++ ",";
  "      " ++ quoted "feedback" ++ ": "
    ++ quoted "Pin trading is highly popular but often blocks hallways or lacks a designated system." ++ ",";
  "      " ++ quoted "sentiment" ++ ": " ++ quoted "Mixed";
  "    },";
  "    {";
  "      " ++ quoted "category" ++ ": " ++ quoted "Logistics" ++ ",";
  "      " ++ quoted "issue" ++ ": " ++ quoted "Venue Navigation" ++ ",";
  "      " ++ quoted "feedback" ++ ": "
    ++ quoted "Large conference venues can be confusing, making it hard to find competition rooms on time." ++ ",";
  "      " ++ quoted "sentiment" ++ ": " ++ quoted "Negative";
  "    }";
  "  ],";
  "  " ++ quoted "recommendations" ++ ": [";
  "    " ++ quoted "Implement a 'Ceremony Focus Mode' to reward attention." ++ ",";
  "    " ++ quoted "Create a 'Digital Pin Marketplace' to supplement physical trading." ++ ",";
  "    " ++ quoted "Provide real-time 'Wayfinding' for ceremony/competition rooms.";
  "  ]";
  "}"
].

(** Everything the script prints, line by line. *)
Definition script_lines : list string :=
  (progress_lines
   ++ [""; banner; title_line; banner]
   ++ report_lines
   ++ [banner; ""; completion_line])%list.

(** [r[k]] for every record [r] of a list, in list order. *)
Definition field_of_each (k : string) (records : list value) : list (sum exn value) :=
  map (fun r => getitem r k) records.

(** A record is a dictionary; a label or a sentence is a string. *)
Definition is_dict (v : value) : Prop := exists items, v = Dict items.

Definition is_str (v : value) : Prop := exists s, v = Str s.

(** The text a run of the script leaves on the standard output of a new
    process. *)
Definition script_output : string :=
  match run_script fresh with
  | inr (_, w) => stdout w
  | inl _ => ""
  end.

(** Calling the generator twice in a row and keeping both results. *)
Definition call_twice : py (value * value) :=
  first <- get_fbla_feedback_report ;;
  second <- get_fbla_feedback_report ;;
  ret (first, second).

(** *** Vocabulary of the round trip *)

(** The values a Python program can build: the keys of a dictionary are
    pairwise distinct, at every depth. *)
Inductive well_formed : value -> Prop :=
| wf_str (s : string) : well_formed (Str s)
| wf_list (lst : list value) :
    Forall well_formed lst -> well_formed (List lst)
| wf_dict (items : list (string * value)) :
    NoDup (map fst items) ->
    Forall (fun kv => well_formed (snd kv)) items ->
    well_formed (Dict items).

(** Number of nodes of a value, counting the cells of its lists and
    dictionaries; the fuel that reading its encoding takes at most. *)
Fixpoint size (v : value) : nat :=
  match v with
  | Str _ => 1
  | List lst => S (fold_right (fun x n => S (size x + n)) 0 lst)
  | Dict items => S (fold_right (fun kv n => S (size (snd kv) + n)) 0 items)
  end.

Definition list_size (lst : list value) : nat :=
  fold_right (fun x n => S (size x + n)) 0 lst.

Definition dict_size (items : list (string * value)) : nat :=
  fold_right (fun kv n => S (size (snd kv) + n)) 0 items.

(** A text the decoder skips: whatever follows it is reached as if the text
    were not there. *)
Definition blank (s : string) : Prop :=
  forall rest, Json.skip_ws (s ++ rest) = Json.skip_ws rest.

(** The encoding of [v] with indent string [indent], at any depth and with
    any text after it, is read back as [v], leaving that text. *)
Definition parses_back (indent : string) (v : value) : Prop :=
  well_formed v ->
  forall (level fuel : nat) (rest : string),
    size v <= fuel ->
    Json.scan_once fuel (Json.iterencode indent level v ++ rest) = Some (v, rest).

(** Induction over values that reaches the elements of a list and the
    values of a dictionary. *)
Fixpoint value_induction (P : value -> Prop)
  (HStr : forall s, P (Str s))
  (HList : forall lst, Forall P lst -> P (List lst))
  (HDict : forall items, Forall (fun kv => P (snd kv)) items -> P (Dict items))
  (v : value) {struct v} : P v :=
  match v with
  | Str s => HStr s
  | List lst =>
      HList lst
        ((fix all (l : list value) : Forall P l :=
            match l with
            | [] => Forall_nil P
            | x :: r => Forall_cons x (value_induction P HStr HList HDict x) (all r)
            end) lst)
  | Dict items =>
      HDict items
        ((fix all (l : list (string * value)) : Forall (fun kv => P (snd kv)) l :=
            match l with
            | [] => Forall_nil _
            | kv :: r =>
                Forall_cons kv (value_induction P HStr HList HDict (snd kv)) (all r)
            end) items)
  end.

(** *** Vocabulary of the further properties *)

(** Lines 58-63: the statements of the main block that follow the call of
    the generator, as a function of the value bound to [results]. *)
Definition print_report (results : value) : py unit :=
  print (nl ++ str_mul "=" 40) ;;
  print "FBLA MEMBER ENGAGEMENT ANALYSIS REPORT" ;;
  print (str_mul "=" 40) ;;
  print (Json.dumps results 2) ;;
  print (str_mul "=" 40) ;;
  print (nl ++ "REPORT COMPLETE: Ready for Judge Review.").


(** Every character of a text passes a test. *)
Fixpoint all_chars (p : ascii -> bool) (s : string) : bool :=
  match s with
  | EmptyString => true
  | String c rest => p c && all_chars p rest
  end.

(** The printable ASCII characters, from the space to the tilde. *)
Definition printable (c : ascii) : bool :=
  (Nat.leb 32 (nat_of_ascii c) && Nat.leb (nat_of_ascii c) 126)%bool.

(** A printable ASCII character or a line feed. *)
Definition printable_or_lf (c : ascii) : bool :=
  (Ascii.eqb c LF || printable c)%bool.

(** No line of a text starts with the character [c0]; [bol] tells whether
    the text starts at the beginning of a line. *)
Fixpoint no_line_starts_with (c0 : ascii) (bol : bool) (s : string) : bool :=
  match s with
  | EmptyString => true
  | String c rest =>
      negb (bol && Ascii.eqb c c0)
      && no_line_starts_with c0 (Ascii.eqb c LF) rest
  end.

(** A text none of whose lines starts with ["="], wherever in a line the
    text itself starts. *)
Definition banner_free (s : string) : Prop :=
  forall bol : bool, no_line_starts_with "=" bol s = true.

(** A line that does not start with ["="]. *)
Definition not_banner_like (l : string) : Prop :=
  forall rest : string, l <> String "=" rest.

(** The four fields of a finding, each a string. *)
Definition is_finding (v : value) : Prop :=
  exists category issue feedback sentiment : string,
    v = Dict [("category", Str category); ("issue", Str issue);
              ("feedback", Str feedback); ("sentiment", Str sentiment)].

(* ===================================================================== *)
(** ** Standard output that can refuse a write *)
(* ===================================================================== *)

(** The text of the script, over any interpreter of [print] and
    [time.sleep].  With [Py.print] and [Py.sleep] it is
    [get_fbla_feedback_report], [main] and [module_body] above. *)
Section Script.

Context {m : Type -> Type} {Monad_m : Monad m}.
Variable print : string -> m unit.
Variable sleep : Z -> m unit.

Definition get_fbla_feedback_report_on : m value :=
  print "Initializng FBLA Feedback Scanner v1.0..." ;;
  sleep 1 ;;
  print "Scanning r/FBLA and FBLA Connect discussions..." ;;
  sleep 1 ;;
  print "Extracting key pain points and engagement metrics..." ;;
  sleep 1 ;;
  ret report.

Definition main_on : m unit :=
  results <- get_fbla_feedback_report_on ;;
  print (nl ++ str_mul "=" 40) ;;
  print "FBLA MEMBER ENGAGEMENT ANALYSIS REPORT" ;;
  print (str_mul "=" 40) ;;
  print (Json.dumps results 2) ;;
  print (str_mul "=" 40) ;;
  print (nl ++ "REPORT COMPLETE: Ready for Judge Review.").

Definition module_body_on (name : string) : m unit :=
  if String.eqb name "__main__" then main_on else ret tt.

End Script.

(** The process with the stream behind standard output made explicit.
    [Py.print] is [print] on a stream that takes every write; here the
    device may refuse, as [/dev/full] or a pipe without reader does, and the
    interpreter either writes through at every [print] (a terminal,
    [python -u]) or keeps the text until the process ends (a file or a
    pipe, whose buffer is larger than all the script writes). *)
Module Io.

Inductive device : Type :=
| Accepts
| Refuses.

Inductive buffering : Type :=
| WriteThrough
| Buffered.

(** The exceptions of this process: [OSError] (or its subclass
    [BrokenPipeError]) for a refused write, whatever the error number, and
    [ValueError] for a negative pause. *)
Inductive exn : Type :=
| OSError
| ValueError (msg : string).

(** The device, the buffering, the text the interpreter still holds, the
    text the device has taken, and the seconds slept. *)
Record world : Type := mkWorld {
  dev : device;
  mode : buffering;
  pending : string;
  delivered : string;
  slept : Z
}.

(** Statements run in a world and finish or raise; the world is kept when
    they raise, since the interpreter still flushes at the end. *)
Definition io : Type -> Type := eitherT exn (state world).

Definition run {A : Type} (c : io A) (w : world) : sum exn A * world :=
  runState (unEitherT c) w.

(** [print(s)]: a buffered stream keeps the line; a stream that writes
    through hands what it holds and the line to the device, and raises
    [OSError] when the device refuses. *)
Definition print (s : string) : io unit :=
  w <- get ;;
  match mode w with
  | Buffered =>
      put (mkWorld (dev w) (mode w) (pending w ++ s ++ nl) (delivered w) (slept w))
  | WriteThrough =>
      match dev w with
      | Accepts =>
          put (mkWorld (dev w) (mode w) ""
                       (delivered w ++ pending w ++ s ++ nl) (slept w))
      | Refuses => raise OSError
      end
  end.

(** [time.sleep(secs)], as [Py.sleep]. *)
Definition sleep (secs : Z) : io unit :=
  if (secs <? 0)%Z
  then raise (ValueError "sleep length must be non-negative")
  else
    w <- get ;;
    put (mkWorld (dev w) (mode w) (pending w) (delivered w) (slept w + secs)).

Definition get_fbla_feedback_report : io value :=
  get_fbla_feedback_report_on print sleep.

Definition main : io unit := main_on print sleep.

Definition module_body (name : string) : io unit :=
  module_body_on print sleep name.

(** The flush that ends the process: the text still held goes to the
    device; [None] when the device refuses it.  With nothing held there is
    nothing to refuse. *)
Definition flush_at_exit (w : world) : option world :=
  match pending w with
  | EmptyString => Some w
  | String _ _ =>
      match dev w with
      | Accepts =>
          Some (mkWorld (dev w) (mode w) "" (delivered w ++ pending w) (slept w))
      | Refuses => None
      end
  end.

(** The exit status: 120 when the final flush fails, otherwise 1 when an
    exception escaped and 0 when the module body ran to its end. *)
Definition exit_status {A : Type} (outcome : sum exn A * world) : Z :=
  match flush_at_exit (snd outcome) with
  | None => 120
  | Some _ =>
      match fst outcome with
      | inl _ => 1
      | inr _ => 0
      end
  end.

(** The text the device holds once the process has ended. *)
Definition final_text {A : Type} (outcome : sum exn A * world) : string :=
  match flush_at_exit (snd outcome) with
  | None => delivered (snd outcome)
  | Some w => delivered w
  end.

(** Running the file as a script. *)
Definition run_script (w : world) : sum exn unit * world :=
  run (module_body "__main__") w.

(** All the program has written so far, in order: what the device has taken
    and what the interpreter still holds. *)
Definition text (w : world) : string := delivered w ++ pending w.

(** On a device that accepts, [c] finishes with [a], having written [t] and
    slept [secs] seconds, and the device and the buffering are as before. *)
Definition writes {A : Type} (c : io A) (a : A) (t : string) (secs : Z) : Prop :=
  forall w : world,
    dev w = Accepts ->
    exists w' : world,
      run c w = (inr a, w') /\
      dev w' = Accepts /\
      mode w' = mode w /\
      text w' = text w ++ t /\
      slept w' = (slept w + secs)%Z.

(** [/dev/full] behind an unbuffered and behind a buffered standard output,
    and a terminal, in a process that has written nothing yet. *)
Definition full_unbuffered : world := mkWorld Refuses WriteThrough "" "" 0.

Definition full_buffered : world := mkWorld Refuses Buffered "" "" 0.

Definition terminal : world := mkWorld Accepts WriteThrough "" "" 0.

End Io.

(* ===================================================================== *)
(** ** Running the generator and the script *)
(* ===================================================================== *)

Lemma append_assoc (a b c : string) : (a ++ b) ++ c = a ++ (b ++ c).
Proof.
  induction a as [| x a IH]; simpl; [reflexivity | now rewrite IH].
Qed.

Lemma append_nil_r (a : string) : a ++ "" = a.
Proof.
  induction a as [| x a IH]; simpl; [reflexivity | now rewrite IH].
Qed.

(** Sequencing: when [m] finishes, [m] then [k] goes on from where [m]
    stopped. *)
Lemma bind_run {A B : Type} (m : py A) (k : A -> py B) (w w' : world) (a : A) :
  runStateT m w = inr (a, w') ->
  runStateT (bind m k) w = runStateT (k a) w'.
Proof. intros H. cbn. rewrite H. reflexivity. Qed.

(** One [print] extends standard output by the line and leaves the clock. *)
Lemma print_run (s : string) (w : world) :
  runStateT (print s) w = inr (tt, mkWorld (stdout w ++ s ++ nl) (slept w)).
Proof. reflexivity. Qed.

(** A pause of a non-negative length only moves the clock. *)
Lemma sleep_run (secs : Z) (w : world) :
  (0 <= secs)%Z ->
  runStateT (sleep secs) w = inr (tt, mkWorld (stdout w) (slept w + secs)).
Proof.
  intros H. unfold sleep.
  destruct (Z.ltb_spec secs 0) as [Hneg | _]; [lia | reflexivity].
Qed.

(** A pause of a negative length raises. *)
Lemma sleep_negative (secs : Z) (w : world) :
  (secs < 0)%Z ->
  runStateT (sleep secs) w = inl (ValueError "sleep length must be non-negative").
Proof.
  intros H. unfold sleep.
  destruct (Z.ltb_spec secs 0) as [_ | Hpos]; [reflexivity | lia].
Qed.

(** The generator, in any world: it returns the report after writing its
    three progress lines and sleeping three seconds. *)
Lemma get_fbla_feedback_report_run (w : world) :
  runStateT get_fbla_feedback_report w
  = inr (report, mkWorld (stdout w ++ unlines progress_lines) (slept w + 3)).
Proof.
  unfold get_fbla_feedback_report, print, sleep. cbn.
  rewrite !append_assoc, <- !Z.add_assoc. reflexivity.
Qed.

(** The script, in any world: it finishes, having appended [script_lines]
    to standard output. *)
Lemma run_script_run (w : world) :
  run_script w
  = inr (tt, mkWorld (stdout w ++ unlines script_lines) (slept w + 3)).
Proof.
  unfold run_script, module_body. cbn [String.eqb Ascii.eqb Bool.eqb].
  unfold main. cbn [bind Monad_stateT runStateT Monad_either].
  rewrite get_fbla_feedback_report_run. cbn -[Json.dumps str_mul unlines].
  rewrite !append_assoc.
  match goal with
  | |- inr (_, mkWorld (_ ++ ?printed) _) = inr (_, mkWorld (_ ++ ?expected) _) =>
      replace printed with expected by (vm_compute; reflexivity)
  end.
  reflexivity.
Qed.

Lemma generator_returns (w : world) : returns get_fbla_feedback_report w report.
Proof. eexists. apply get_fbla_feedback_report_run. Qed.

Lemma script_finishes (w : world) : returns (module_body "__main__") w tt.
Proof. eexists. apply run_script_run. Qed.

Create HintDb report discriminated.
#[local] Hint Resolve generator_returns script_finishes : report.

(** The lines of the encoded report are the ones written out above. *)
Lemma dumps_report_lines : lines (Json.dumps report 2) = report_lines.
Proof. vm_compute. reflexivity. Qed.

Lemma banner_is_banner_line : banner_line banner.
Proof. exists "="%char. reflexivity. Qed.

(** A banner has 40 characters. *)
Lemma banner_line_length (l : string) : banner_line l -> String.length l = 40.
Proof. intros [c ->]. reflexivity. Qed.

(* ===================================================================== *)
(** ** The report *)
(* ===================================================================== *)

(** C2: any two calls of the generator return the same report, whatever the
    worlds they run in; so do two calls in a row. *)
Theorem C2_generator_deterministic :
  forall w1 w2 : world,
    exists r : value,
      returns get_fbla_feedback_report w1 r /\
      returns get_fbla_feedback_report w2 r /\
      returns call_twice w1 (r, r).
Proof.
  intros w1 w2. exists report. repeat split; auto with report.
  unfold returns, call_twice.
  do 2 (erewrite bind_run by apply get_fbla_feedback_report_run).
  eexists. reflexivity.
Qed.

(** C3: the report has exactly 4 findings, each a record, and exactly 3
    recommendations, each a string. *)
Theorem C3_findings_and_recommendations_count :
  forall w : world,
    exists (r : value) (findings recommendations : list value),
      returns get_fbla_feedback_report w r /\
      getitem r "findings" = inr (List findings) /\
      len (List findings) = 4 /\
      Forall is_dict findings /\
      getitem r "recommendations" = inr (List recommendations) /\
      len (List recommendations) = 3 /\
      Forall is_str recommendations.
Proof.
  intros w. exists report. do 2 eexists.
  split; [auto with report |].
  split; [reflexivity |]. split; [reflexivity |].
  split; [repeat constructor; eexists; reflexivity |].
  split; [reflexivity |]. split; [reflexivity |].
  repeat constructor; eexists; reflexivity.
Qed.

(** C4: the sentiment of every finding of the report is one of "Negative",
    "Critical" and "Mixed". *)
Theorem C4_sentiment_in_fixed_set :
  forall w : world,
    exists (r : value) (findings : list value),
      returns get_fbla_feedback_report w r /\
      getitem r "findings" = inr (List findings) /\
      Forall (fun finding =>
                exists label : string,
                  getitem finding "sentiment" = inr (Str label) /\
                  In label ["Negative"; "Critical"; "Mixed"])
             findings.
Proof.
  intros w. exists report. eexists.
  split; [auto with report |]. split; [reflexivity |].
  repeat constructor; eexists; (split; [reflexivity | simpl; tauto]).
Qed.

(** C5: metadata.search_categories of the report is the sequence
    "Engagement", "Events", "Judging", "Logistics". *)
Theorem C5_search_categories :
  forall w : world,
    exists (r metadata : value),
      returns get_fbla_feedback_report w r /\
      getitem r "metadata" = inr metadata /\
      getitem metadata "search_categories"
      = inr (List [Str "Engagement"; Str "Events"; Str "Judging"; Str "Logistics"]).
Proof.
  intros w. exists report. eexists.
  split; [auto with report |]. split; reflexivity.
Qed.

(** C9: the categories of the findings are, in order, "Event Engagement",
    "Competition", "Networking", "Logistics"; they are not all among
    metadata.search_categories, and "Logistics" is the only one that is. *)
Theorem C9_finding_categories :
  forall w : world,
    exists (r metadata : value) (findings searched : list value),
      returns get_fbla_feedback_report w r /\
      getitem r "findings" = inr (List findings) /\
      field_of_each "category" findings
      = [inr (Str "Event Engagement"); inr (Str "Competition");
         inr (Str "Networking"); inr (Str "Logistics")] /\
      getitem r "metadata" = inr metadata /\
      getitem metadata "search_categories" = inr (List searched) /\
      ~ (forall c : value,
           In (inr c) (field_of_each "category" findings) -> In c searched) /\
      (forall c : value,
         In (inr c) (field_of_each "category" findings) /\ In c searched
         <-> c = Str "Logistics").
Proof.
  intros w. exists report. do 3 eexists.
  split; [auto with report |].
  split; [reflexivity |]. split; [reflexivity |].
  split; [reflexivity |]. split; [reflexivity |].
  split.
  - intros Hall. specialize (Hall (Str "Competition")).
    simpl in Hall. intuition congruence.
  - intros c. simpl. split.
    + intros [Hcat Hsearch]. intuition congruence.
    + intros ->. tauto.
Qed.

(** C10: metadata.report_date of the report is "2026-01-03" and
    metadata.source is "Reddit, FBLA Connect, Member Forums", in every
    world the generator is called in. *)
Theorem C10_report_date_and_source :
  forall w : world,
    exists (r metadata : value),
      returns get_fbla_feedback_report w r /\
      getitem r "metadata" = inr metadata /\
      getitem metadata "report_date" = inr (Str "2026-01-03") /\
      getitem metadata "source" = inr (Str "Reddit, FBLA Connect, Member Forums").
Proof.
  intros w. exists report. eexists.
  split; [auto with report |]. repeat split; reflexivity.
Qed.

(* ===================================================================== *)
(** ** Round trip through the indented text *)
(* ===================================================================== *)

Import Json.
Import Json.





(** The decoder undoes the escape of one character, for each of the 256
    characters. *)
Lemma scanstring_escape_char (c : ascii) (rest : string) :
  scanstring (escape_char c ++ rest)
  = match scanstring rest with
    | Some (str, after) => Some (String c str, after)
    | None => None
    end.
Proof.
  destruct c as [[] [] [] [] [] [] [] []]; reflexivity.
Qed.

(** So it reads an escaped text up to the closing quote and gives the text
    back. *)
Lemma scanstring_escape (s rest : string) :
  scanstring (escape s ++ String DQUOTE rest) = Some (s, rest).
Proof.
  induction s as [| c s IH]; [reflexivity |].
  cbn [escape]. rewrite append_assoc, scanstring_escape_char, IH. reflexivity.
Qed.

(** An encoded string is an opening quote and a body [scanstring] reads. *)
Lemma scanstring_encoded (s rest : string) :
  exists body,
    encode_basestring_ascii s ++ rest = String DQUOTE body /\
    scanstring body = Some (s, rest).
Proof.
  exists (escape s ++ String DQUOTE rest). split.
  - unfold encode_basestring_ascii. cbn [append]. now rewrite append_assoc.
  - apply scanstring_escape.
Qed.

(** Line feeds and indents are blank. *)
Lemma blank_empty : blank "".
Proof. intros rest. reflexivity. Qed.

Lemma blank_append (a b : string) : blank a -> blank b -> blank (a ++ b).
Proof. intros Ha Hb rest. now rewrite append_assoc, Ha, Hb. Qed.

Lemma blank_space : blank " ".
Proof. intros rest. reflexivity. Qed.

Lemma blank_nl : blank nl.
Proof. intros rest. reflexivity. Qed.

Lemma blank_str_mul (s : string) (n : Z) : blank s -> blank (str_mul s n).
Proof.
  intros Hs. unfold str_mul.
  induction (Z.to_nat n) as [| k IH]; [apply blank_empty |].
  cbn [repeat String.concat].
  destruct (repeat s k) as [| x xs] eqn:E.
  - exact Hs.
  - cbn [append]. apply blank_append; [exact Hs | exact IH].
Qed.

(** An encoding starts with a quote or an opening bracket, so no blank is
    skipped in front of it. *)
Lemma iterencode_head (indent : string) (level : nat) (v : value) :
  exists c body,
    iterencode indent level v = String c body /\
    (c = DQUOTE \/ c = "["%char \/ c = "{"%char).
Proof.
  destruct v as [s | [| x lst] | [| kv items]]; cbn [iterencode];
    eexists; eexists; (split; [reflexivity | tauto]).
Qed.

Lemma skip_ws_iterencode (indent : string) (level : nat) (v : value) (rest : string) :
  skip_ws (iterencode indent level v ++ rest) = iterencode indent level v ++ rest.
Proof.
  destruct (iterencode_head indent level v) as (c & body & -> & [-> | [-> | ->]]);
    reflexivity.
Qed.

Lemma skip_ws_space (s : string) : skip_ws (String " " s) = skip_ws s.
Proof. reflexivity. Qed.

(** Building a dictionary from items with distinct keys keeps the items
    as they are. *)
Lemma setitem_fresh (k : string) (v : value) (items : list (string * value)) :
  ~ In k (map fst items) -> setitem k v items = (items ++ [(k, v)])%list.
Proof.
  induction items as [| [k' v'] items IH]; intros Hfresh; [reflexivity |].
  cbn [setitem]. cbn [map fst In] in Hfresh.
  destruct (String.eqb_spec k k') as [-> | _]; [tauto |].
  rewrite IH; [reflexivity | tauto].
Qed.

Lemma fold_setitem_nodup (pairs acc : list (string * value)) :
  NoDup (map fst (acc ++ pairs)) ->
  fold_left (fun d kv => setitem (fst kv) (snd kv) d) pairs acc
  = (acc ++ pairs)%list.
Proof.
  revert acc. induction pairs as [| [k v] pairs IH]; intros acc Hnodup.
  - now rewrite app_nil_r.
  - cbn [fold_left fst snd].
    rewrite setitem_fresh.
    + rewrite IH; rewrite <- app_assoc; [reflexivity | exact Hnodup].
    + rewrite map_app in Hnodup. cbn [map fst] in Hnodup.
      apply NoDup_remove_2 in Hnodup.
      intros Hin. apply Hnodup. apply in_or_app. now left.
Qed.

Lemma dict_of_pairs_nodup (items : list (string * value)) :
  NoDup (map fst items) -> dict_of_pairs items = items.
Proof. intros H. unfold dict_of_pairs. now rewrite fold_setitem_nodup. Qed.

Section RoundTrip.

Variable indent : string.
Hypothesis indent_blank : blank indent.



(** The loop of [JSONArray] reads back what the loop of
    [_iterencode_list] wrote, up to the closing bracket. *)
Lemma array_loop_chunks (b closing : string) (level : nat) :
  blank b -> blank closing ->
  forall (lst : list value) (v : value) (fuel : nat) (rest : string),
    Forall (parses_back indent) (v :: lst) ->
    Forall well_formed (v :: lst) ->
    list_size (v :: lst) <= fuel ->
    array_loop fuel
      (iterencode indent level v
       ++ iterencode_list_loop (iterencode indent level) (String "," b) false lst
       ++ closing ++ String "]" rest)
    = Some (v :: lst, rest).
Proof.
  intros Hb Hclosing lst.
  induction lst as [| v' lst IH]; intros v fuel rest HP Hwf Hfuel;
    (destruct fuel as [| fuel]; [cbn in Hfuel; lia |]);
    cbn [array_loop];
    inversion HP as [| ? ? Hv HP']; subst;
    inversion Hwf as [| ? ? Hwv Hwf']; subst;
    (rewrite (Hv Hwv); [| cbn in Hfuel; cbn; lia]);
    cbn [bind Monad_option iterencode_list_loop append].
  - rewrite Hclosing. reflexivity.
  - cbn [skip_ws].
    change (is_whitespace ",") with false. cbv iota.
    change (Ascii.eqb "," "]") with false.
    change (Ascii.eqb "," ",") with true. cbv iota.
    rewrite !append_assoc, Hb, skip_ws_iterencode.
    rewrite (IH v' fuel rest HP' Hwf'); [reflexivity | cbn in Hfuel; cbn; lia].
Qed.


(** The loop of [JSONObject] reads back what the loop of
    [_iterencode_dict] wrote, up to the closing brace. *)
Lemma object_loop_chunks (b closing : string) (level : nat) :
  blank b -> blank closing ->
  forall (items : list (string * value)) (k : string) (v : value)
         (fuel : nat) (rest : string),
    Forall (fun kv => parses_back indent (snd kv)) ((k, v) :: items) ->
    Forall (fun kv => well_formed (snd kv)) ((k, v) :: items) ->
    dict_size ((k, v) :: items) <= fuel ->
    object_loop fuel
      (escape k
       ++ String DQUOTE (String ":" (String " "
            (iterencode indent level v
             ++ iterencode_dict_loop (iterencode indent level) (String "," b) false items
             ++ closing ++ String "}" rest))))
    = Some ((k, v) :: items, rest).
Proof.
  intros Hb Hclosing items.
  induction items as [| [k' v'] items IH]; intros k v fuel rest HP Hwf Hfuel;
    (destruct fuel as [| fuel]; [cbn in Hfuel; lia |]);
    cbn [object_loop];
    inversion HP as [| ? ? Hv HP']; subst;
    inversion Hwf as [| ? ? Hwv Hwf']; subst;
    cbn [snd] in Hv, Hwv;
    rewrite scanstring_escape;
    cbn [bind Monad_option append skip_ws];
    change (is_whitespace ":") with false; cbv iota;
    change (Ascii.eqb ":" ":") with true; cbv iota;
    rewrite skip_ws_space, skip_ws_iterencode;
    (rewrite (Hv Hwv); [| cbn in Hfuel; cbn; lia]);
    cbn [bind Monad_option iterencode_dict_loop append].
  - rewrite Hclosing. reflexivity.
  - cbn [skip_ws].
    change (is_whitespace ",") with false. cbv iota.
    change (Ascii.eqb "," "}") with false.
    change (Ascii.eqb "," ",") with true. cbv iota.
    unfold encode_basestring_ascii. cbn [append].
    rewrite !append_assoc, Hb. cbn [append skip_ws].
    change (is_whitespace DQUOTE) with false. cbv iota.
    change (Ascii.eqb DQUOTE DQUOTE) with true. cbv iota.
    rewrite !append_assoc. cbn [append]. rewrite !append_assoc.
    rewrite (IH k' v' fuel rest HP' Hwf'); [reflexivity | cbn in Hfuel; cbn; lia].
Qed.

(** Every well-formed value is read back from its encoding, whatever
    follows it, as soon as the fuel covers its size. *)
Lemma iterencode_parses_back (v : value) : parses_back indent v.
Proof.
  induction v as [s | lst IH | items IH] using value_induction;
    intros Hwf level fuel rest Hfuel;
    (destruct fuel as [| fuel]; [cbn in Hfuel; lia |]).
  - destruct (scanstring_encoded s rest) as (body & E & Hscan).
    cbn [iterencode]. rewrite E. cbn [scan_once].
    change (Ascii.eqb DQUOTE DQUOTE) with true. cbv iota.
    rewrite Hscan. reflexivity.
  - inversion Hwf as [| ? Hall |]; subst.
    destruct lst as [| x lst]; [reflexivity |].
    pose proof (array_loop_chunks
                  (nl ++ str_mul indent (Z.of_nat (S level)))
                  (nl ++ str_mul indent (Z.of_nat level)) (S level)
                  (blank_append _ _ blank_nl (blank_str_mul _ _ indent_blank))
                  (blank_append _ _ blank_nl (blank_str_mul _ _ indent_blank))
                  lst x fuel rest IH Hall) as Hloop.
    cbn [iterencode]. cbn [append scan_once].
    change (Ascii.eqb "[" DQUOTE) with false.
    change (Ascii.eqb "[" "{") with false.
    change (Ascii.eqb "[" "[") with true. cbv iota.
    rewrite !append_assoc.
    rewrite blank_nl, (blank_str_mul _ _ indent_blank).
    cbn [iterencode_list_loop append]. rewrite !append_assoc.
    rewrite skip_ws_iterencode.
    cbn [append] in Hloop. rewrite !append_assoc in Hloop.
    destruct (iterencode_head indent (S level) x) as (c & body & E & Hc).
    rewrite E in *. cbn [append] in *.
    rewrite Hloop by (cbn in Hfuel; cbn; lia).
    destruct Hc as [-> | [-> | ->]]; reflexivity.
  - inversion Hwf as [| | ? Hnodup Hall]; subst.
    destruct items as [| [k x] items]; [reflexivity |].
    pose proof (object_loop_chunks
                  (nl ++ str_mul indent (Z.of_nat (S level)))
                  (nl ++ str_mul indent (Z.of_nat level)) (S level)
                  (blank_append _ _ blank_nl (blank_str_mul _ _ indent_blank))
                  (blank_append _ _ blank_nl (blank_str_mul _ _ indent_blank))
                  items k x fuel rest IH Hall) as Hloop.
    cbn [iterencode]. cbn [append scan_once].
    change (Ascii.eqb "{" DQUOTE) with false.
    change (Ascii.eqb "{" "{") with true. cbv iota.
    rewrite !append_assoc.
    rewrite blank_nl, (blank_str_mul _ _ indent_blank).
    cbn [iterencode_dict_loop append]. unfold encode_basestring_ascii at 1.
    cbn [append skip_ws].
    change (is_whitespace DQUOTE) with false. cbv iota.
    change (Ascii.eqb DQUOTE "}") with false.
    change (Ascii.eqb DQUOTE DQUOTE) with true. cbv iota.
    rewrite !append_assoc. cbn [append]. rewrite !append_assoc.
    cbn [append] in Hloop. rewrite !append_assoc in Hloop.
    rewrite Hloop by (cbn in Hfuel; cbn; lia).
    cbn [bind ret Monad_option]. now rewrite dict_of_pairs_nodup.
Qed.

End RoundTrip.

(** The fuel [loads] starts with covers the size of the value: an encoding
    is at least as long as the value is big. *)
Lemma length_append (a b : string) :
  String.length (a ++ b) = String.length a + String.length b.
Proof.
  induction a as [| c a IH]; cbn [append String.length]; [reflexivity | now rewrite IH].
Qed.

Section Size.

Variable indent : string.

Lemma list_size_le_length (encode : value -> string) (separator : string)
      (lst : list value) :
  1 <= String.length separator ->
  Forall (fun v => size v <= String.length (encode v)) lst ->
  forall first : bool,
    list_size lst
    <= String.length (iterencode_list_loop encode separator first lst)
       + (if first then 1 else 0).
Proof.
  intros Hsep Hall. induction Hall as [| x lst Hx _ IH]; intros first.
  - cbn. lia.
  - cbn [list_size fold_right iterencode_list_loop].
    fold (list_size lst). rewrite !length_append.
    specialize (IH false). cbv iota in IH.
    destruct first; cbn [String.length]; lia.
Qed.

Lemma dict_size_le_length (encode : value -> string) (separator : string)
      (items : list (string * value)) :
  1 <= String.length separator ->
  Forall (fun kv => size (snd kv) <= String.length (encode (snd kv))) items ->
  forall first : bool,
    dict_size items
    <= String.length (iterencode_dict_loop encode separator first items)
       + (if first then 1 else 0).
Proof.
  intros Hsep Hall. induction Hall as [| [k x] items Hx _ IH]; intros first.
  - cbn. lia.
  - cbn [dict_size fold_right iterencode_dict_loop snd] in *.
    fold (dict_size items). rewrite !length_append.
    specialize (IH false). cbv iota in IH.
    destruct first; cbn [String.length]; lia.
Qed.

(** The encoding of a value is at least as long as its size. *)
Lemma size_le_length (v : value) :
  forall level : nat, size v <= String.length (iterencode indent level v).
Proof.
  induction v as [s | lst IH | items IH] using value_induction; intros level.
  - cbn. lia.
  - destruct lst as [| x lst]; [cbn; lia |].
    cbn [iterencode size]. fold (list_size (x :: lst)).
    rewrite !length_append. cbn [String.length nl].
    pose proof (list_size_le_length (iterencode indent (S level))
                  ("," ++ nl ++ str_mul indent (Z.of_nat (S level))) (x :: lst)) as H.
    specialize (H ltac:(cbn; lia)
                  ltac:(eapply Forall_impl; [| exact IH]; intros a Ha; apply Ha) true).
    cbn [String.length] in H. lia.
  - destruct items as [| kv items]; [cbn; lia |].
    cbn [iterencode size]. fold (dict_size (kv :: items)).
    rewrite !length_append. cbn [String.length nl].
    pose proof (dict_size_le_length (iterencode indent (S level))
                  ("," ++ nl ++ str_mul indent (Z.of_nat (S level))) (kv :: items)) as H.
    specialize (H ltac:(cbn; lia)
                  ltac:(eapply Forall_impl; [| exact IH]; intros a Ha; apply Ha) true).
    cbn [String.length] in H. lia.
Qed.

End Size.

(** Reading back the indented text of any well-formed value gives the
    value, whatever the indent width. *)
Theorem loads_dumps (v : value) (n : Z) :
  well_formed v -> loads (dumps v n) = Some v.
Proof.
  intros Hwf. unfold loads, dumps.
  set (indent := str_mul " " n).
  assert (Hblank : blank indent) by (apply blank_str_mul, blank_space).
  pose proof (size_le_length indent v 0) as Hsize.
  rewrite <- (append_nil_r (iterencode indent 0 v)) at 2.
  rewrite skip_ws_iterencode.
  rewrite (iterencode_parses_back indent Hblank v Hwf) by lia.
  reflexivity.
Qed.


(** The keys of the report are distinct in each of its dictionaries. *)
Lemma report_well_formed : well_formed report.
Proof.
  repeat (constructor; cbn [map fst snd]);
    try (intros Hin; cbn [In] in Hin; intuition discriminate).
Qed.

(** C6: the report, written as indented text by [json.dumps(_, indent=2)]
    and read back, is the report again. *)
Theorem C6_report_round_trip :
  forall w : world,
    exists r : value,
      returns get_fbla_feedback_report w r /\
      Json.loads (Json.dumps r 2) = Some r.
Proof.
  intros w. exists report. split; [auto with report |].
  apply loads_dumps, report_well_formed.
Qed.

(* ===================================================================== *)
(** ** Standard output and exit status of the script *)
(* ===================================================================== *)

(** C1 as stated fails: the lines of the output of a run do not have the
    layout with the banner twice in a row before the title, read with or
    without the empty lines the script also prints. *)
Lemma C1_banner_twice_layout_fails :
  ~ banner_twice_layout (Json.dumps report 2) (lines script_output) /\
  ~ banner_twice_layout (Json.dumps report 2)
      (filter nonblank (lines script_output)).
Proof.
  split.
  - intros (p1 & p2 & p3 & b & t & c & Hb & Hls).
    apply (f_equal (fun ls => nth 3 ls "")) in Hls.
    vm_compute in Hls. subst b.
    apply banner_line_length in Hb. discriminate Hb.
  - intros (p1 & p2 & p3 & b & t & c & Hb & Hls).
    pose proof (f_equal (fun ls => nth 3 ls "") Hls) as H3.
    pose proof (f_equal (fun ls => nth 4 ls "") Hls) as H4.
    vm_compute in H3, H4. rewrite <- H3 in H4. discriminate H4.
Qed.

(** C1, amended: a run of the script appends to standard output, in this
    order, the three progress lines, an empty line, the banner of 40 "=",
    the title, the banner, the report as indented text (the lines written
    out in [report_lines]), the banner a third time, an empty line and the
    completion line, each ended by a line feed. *)
Theorem C1_stdout_layout :
  forall w : world,
    exists w' : world,
      run_script w = inr (tt, w') /\
      stdout w'
      = stdout w
        ++ unlines
             (["Initializng FBLA Feedback Scanner v1.0...";
               "Scanning r/FBLA and FBLA Connect discussions...";
               "Extracting key pain points and engagement metrics..."]
              ++ [""; banner; "FBLA MEMBER ENGAGEMENT ANALYSIS REPORT"; banner]
              ++ lines (Json.dumps report 2)
              ++ [banner; ""; "REPORT COMPLETE: Ready for Judge Review."])%list /\
      lines (Json.dumps report 2) = report_lines /\
      banner = str_mul "=" 40 /\
      banner_line banner.
Proof.
  intros w. eexists. split; [apply run_script_run |].
  split; [| split; [apply dumps_report_lines | split;
                    [reflexivity | apply banner_is_banner_line]]].
  cbn [stdout]. rewrite dumps_report_lines. reflexivity.
Qed.

(** C7: the text a run of the script writes contains the title
    "FBLA MEMBER ENGAGEMENT ANALYSIS REPORT" and, starting after the end of
    the title, "REPORT COMPLETE: Ready for Judge Review.". *)
Theorem C7_title_then_completion :
  forall w : world,
    exists (w' : world) (out : string) (i j : nat),
      run_script w = inr (tt, w') /\
      stdout w' = stdout w ++ out /\
      index 0 "FBLA MEMBER ENGAGEMENT ANALYSIS REPORT" out = Some i /\
      index 0 "REPORT COMPLETE: Ready for Judge Review." out = Some j /\
      i + String.length "FBLA MEMBER ENGAGEMENT ANALYSIS REPORT" <= j.
Proof.
  intros w. eexists. exists (unlines script_lines). do 2 eexists.
  split; [apply run_script_run |].
  split; [reflexivity |].
  split; [vm_compute; reflexivity |].
  split; [vm_compute; reflexivity |].
  vm_compute. repeat constructor.
Qed.


(* ===================================================================== *)
(** ** The script on a standard output that can refuse a write *)
(* ===================================================================== *)

(** The generic text of the script is the script of the sections above. *)
Lemma script_on_py :
  get_fbla_feedback_report = get_fbla_feedback_report_on Py.print Py.sleep /\
  main = main_on Py.print Py.sleep /\
  module_body = module_body_on Py.print Py.sleep.
Proof. repeat split; reflexivity. Qed.

Lemma io_bind_run {A B : Type} (c : Io.io A) (k : A -> Io.io B) (w : Io.world) :
  Io.run (bind c k) w
  = match Io.run c w with
    | (inr a, w') => Io.run (k a) w'
    | (inl e, w') => (inl e, w')
    end.
Proof.
  unfold Io.run. cbn.
  destruct (runState (unEitherT c) w) as [[e | a] w']; reflexivity.
Qed.

Lemma writes_ret {A : Type} (a : A) : Io.writes (ret a) a "" 0.
Proof.
  intros w Hdev. exists w. cbn.
  rewrite append_nil_r, Z.add_0_r. auto.
Qed.

Lemma writes_bind {A B : Type} (c : Io.io A) (k : A -> Io.io B)
      (a : A) (b : B) (t1 t2 : string) (s1 s2 : Z) :
  Io.writes c a t1 s1 ->
  Io.writes (k a) b t2 s2 ->
  Io.writes (bind c k) b (t1 ++ t2) (s1 + s2).
Proof.
  intros Hc Hk w Hdev.
  destruct (Hc w Hdev) as (w1 & Hrun1 & Hdev1 & Hmode1 & Htext1 & Hslept1).
  destruct (Hk w1 Hdev1) as (w2 & Hrun2 & Hdev2 & Hmode2 & Htext2 & Hslept2).
  exists w2. rewrite io_bind_run, Hrun1, Hrun2.
  repeat split; [exact Hdev2 | congruence | | lia].
  now rewrite Htext2, Htext1, append_assoc.
Qed.

Lemma writes_print (s : string) : Io.writes (Io.print s) tt (s ++ nl) 0.
Proof.
  intros [d m p dl sl] Hdev. cbn in Hdev. subst d.
  destruct m; eexists; (split; [reflexivity |]); cbn;
    rewrite ?append_assoc, ?append_nil_r, Z.add_0_r; auto.
Qed.

Lemma writes_sleep (secs : Z) :
  (0 <= secs)%Z -> Io.writes (Io.sleep secs) tt "" secs.
Proof.
  intros Hsecs [d m p dl sl] Hdev. unfold Io.sleep.
  destruct (Z.ltb_spec secs 0) as [Hneg | _]; [lia |].
  eexists. split; [reflexivity |]. cbn. rewrite append_nil_r. auto.
Qed.

Lemma writes_eq {A : Type} (c : Io.io A) (a : A) (t t' : string) (s s' : Z) :
  Io.writes c a t s -> t = t' -> s = s' -> Io.writes c a t' s'.
Proof. intros H <- <-. exact H. Qed.

(** On a device that accepts, the generator writes its three progress
    lines, sleeps three seconds and returns the report. *)
Lemma writes_generator :
  Io.writes Io.get_fbla_feedback_report report (unlines progress_lines) 3.
Proof.
  unfold Io.get_fbla_feedback_report, get_fbla_feedback_report_on.
  eapply writes_eq.
  - repeat (eapply writes_bind;
            [first [apply writes_print | apply writes_sleep; lia] |]).
    apply writes_ret.
  - vm_compute. reflexivity.
  - reflexivity.
Qed.

(** On a device that accepts, the main block writes all of [script_lines]
    and sleeps three seconds. *)
Lemma writes_main : Io.writes Io.main tt (unlines script_lines) 3.
Proof.
  unfold Io.main, main_on.
  eapply writes_eq.
  - eapply writes_bind; [apply writes_generator |].
    repeat (eapply writes_bind; [apply writes_print |]).
    apply writes_print.
  - vm_compute. reflexivity.
  - reflexivity.
Qed.

(** When the device accepts, the final flush succeeds and the device ends
    up with all the program has written. *)
Lemma exit_on_accepting_device {A : Type} (r : sum Io.exn A) (w : Io.world) :
  Io.dev w = Io.Accepts ->
  Io.exit_status (r, w) = match r with inl _ => 1 | inr _ => 0 end%Z /\
  Io.final_text (r, w) = Io.text w.
Proof.
  destruct w as [d m p dl sl]. cbn. intros ->.
  unfold Io.exit_status, Io.final_text, Io.flush_at_exit, Io.text. cbn.
  destruct p; cbn; rewrite ?append_nil_r; auto.
Qed.

(** When the device refuses, the run of the script ends with status 1 or
    120, and nothing but [OSError] escapes the script or the generator. *)
Lemma script_on_refusing_device (w : Io.world) :
  Io.dev w = Io.Refuses ->
  (Io.exit_status (Io.run_script w) = 1%Z \/
   Io.exit_status (Io.run_script w) = 120%Z) /\
  (fst (Io.run_script w) = inr tt \/ fst (Io.run_script w) = inl Io.OSError) /\
  (fst (Io.run Io.get_fbla_feedback_report w) = inr report \/
   fst (Io.run Io.get_fbla_feedback_report w) = inl Io.OSError).
Proof.
  destruct w as [d m p dl sl]. cbn. intros ->.
  destruct m, p; vm_compute; auto.
Qed.

(** C8 as stated fails: behind a standard output that refuses writes, as
    [/dev/full] does, the generator raises [OSError] at its first [print]
    when the stream writes through, and the exit status is 1; when the
    stream is buffered the final flush fails and the exit status is 120. *)
Lemma C8_refused_write_is_a_failure_path :
  fst (Io.run Io.get_fbla_feedback_report Io.full_unbuffered) = inl Io.OSError /\
  Io.exit_status (Io.run_script Io.full_unbuffered) = 1%Z /\
  Io.exit_status (Io.run_script Io.full_buffered) = 120%Z.
Proof. repeat split; vm_compute; reflexivity. Qed.

(** C8, amended: the script raises nothing of its own.  When standard
    output accepts every write, the generator returns the report, the
    script runs to its end, the exit status is 0 and the device has
    received the whole text of the script.  When standard output refuses
    the writes, the exit status is not 0 (it is 1 or 120), and [OSError] is
    the only exception that escapes the generator or the script. *)
Theorem C8_fails_only_when_stdout_refuses :
  forall w : Io.world,
    match Io.dev w with
    | Io.Accepts =>
        fst (Io.run Io.get_fbla_feedback_report w) = inr report /\
        fst (Io.run_script w) = inr tt /\
        Io.exit_status (Io.run_script w) = 0%Z /\
        Io.final_text (Io.run_script w) = Io.text w ++ unlines script_lines
    | Io.Refuses =>
        Io.exit_status (Io.run_script w) <> 0%Z /\
        (Io.exit_status (Io.run_script w) = 1%Z \/
         Io.exit_status (Io.run_script w) = 120%Z) /\
        (fst (Io.run_script w) = inr tt \/
         fst (Io.run_script w) = inl Io.OSError) /\
        (fst (Io.run Io.get_fbla_feedback_report w) = inr report \/
         fst (Io.run Io.get_fbla_feedback_report w) = inl Io.OSError)
    end.
Proof.
  intros w. destruct (Io.dev w) eqn:Hdev.
  - destruct (writes_generator w Hdev) as (wg & Hgen & _).
    destruct (writes_main w Hdev) as (w' & Hrun & Hdev' & _ & Htext & _).
    assert (Hscript : Io.run_script w = (inr tt, w')) by exact Hrun.
    destruct (exit_on_accepting_device (inr tt) w' Hdev') as [Hexit Hfinal].
    rewrite Hgen, Hscript. repeat split; [exact Hexit |].
    now rewrite Hfinal, Htext.
  - destruct (script_on_refusing_device w Hdev) as (Hstatus & Hscript & Hgen).
    repeat split; [| exact Hstatus | exact Hscript | exact Hgen].
    destruct Hstatus as [E | E]; rewrite E; discriminate.
Qed.

(* ===================================================================== *)
(** ** Further properties of the script *)
(* ===================================================================== *)


(** X1: imported under any name other than "__main__", the module runs to
    its end without printing and without pausing: the world is as before. *)
Theorem import_has_no_effect :
  forall (name : string) (w : world),
    name <> "__main__" ->
    runStateT (module_body name) w = inr (tt, w).
Proof.
  intros name w Hname. unfold module_body.
  destruct (String.eqb_spec name "__main__") as [E | _]; [contradiction | reflexivity].
Qed.

Lemma import_has_no_effect_witness :
  "feedback_scanner" <> "__main__" /\
  runStateT (module_body "feedback_scanner") fresh = inr (tt, fresh).
Proof.
  split; [discriminate |].
  apply (import_has_no_effect "feedback_scanner" fresh). discriminate.
Defined.



(** The printing block of the main block, in any world and for any value:
    it writes the frame around the indented text of the value and leaves
    the clock alone. *)
Lemma print_report_run (results : value) (w : world) :
  runStateT (print_report results) w
  = inr (tt,
         mkWorld (stdout w
                  ++ unlines [""; banner; title_line; banner]
                  ++ Json.dumps results 2 ++ nl
                  ++ unlines [banner; ""; completion_line])
                 (slept w)).
Proof.
  unfold print_report, print. cbn -[Json.dumps].
  rewrite !append_assoc. reflexivity.
Qed.


(** The main block is the call of the generator followed by the printing
    block. *)
Lemma main_prints_the_report :
  main = bind get_fbla_feedback_report print_report.
Proof. reflexivity. Qed.

(** X4: whenever the printing block of the main block runs to its end, for
    whatever value is bound to [results], it has appended to standard
    output an empty line, the banner, the title, the banner, the text
    [json.dumps] returned for the value, the banner, an empty line and the
    completion line, each ended by a line feed, and it has not paused. *)
Theorem print_report_frame_when_finished :
  forall (results : value) (w w' : world),
    runStateT (print_report results) w = inr (tt, w') ->
    stdout w'
    = stdout w
      ++ unlines [""; banner; "FBLA MEMBER ENGAGEMENT ANALYSIS REPORT"; banner]
      ++ Json.dumps results 2 ++ nl
      ++ unlines [banner; ""; "REPORT COMPLETE: Ready for Judge Review."] /\
    slept w' = slept w.
Proof.
  intros results w w' Hrun. rewrite print_report_run in Hrun.
  injection Hrun as <-. split; reflexivity.
Qed.

Lemma print_report_frame_when_finished_witness :
  exists w' : world,
    runStateT (print_report (List [Str "Events"])) fresh = inr (tt, w') /\
    stdout w'
    = stdout fresh
      ++ unlines [""; banner; "FBLA MEMBER ENGAGEMENT ANALYSIS REPORT"; banner]
      ++ Json.dumps (List [Str "Events"]) 2 ++ nl
      ++ unlines [banner; ""; "REPORT COMPLETE: Ready for Judge Review."] /\
    slept w' = slept fresh.
Proof.
  eexists. split; [reflexivity |].
  apply (print_report_frame_when_finished (List [Str "Events"]) fresh).
  reflexivity.
Defined.

(** X5: the report has the keys metadata, findings and recommendations, in
    this order; every finding has the four fields category, issue, feedback
    and sentiment, in this order and each a string, so reading any of them
    never raises; and no dictionary of the report repeats a key. *)
Theorem report_schema :
  forall w : world,
    exists (items : list (string * value)) (findings : list value),
      returns get_fbla_feedback_report w (Dict items) /\
      map fst items = ["metadata"; "findings"; "recommendations"] /\
      getitem (Dict items) "findings" = inr (List findings) /\
      Forall is_finding findings /\
      Forall (fun finding =>
                forall field : string,
                  In field ["category"; "issue"; "feedback"; "sentiment"] ->
                  exists s : string, getitem finding field = inr (Str s))
             findings /\
      well_formed (Dict items).
Proof.
  intros w. do 2 eexists.
  split; [apply generator_returns |].
  split; [reflexivity |]. split; [reflexivity |].
  split; [repeat constructor; do 4 eexists; reflexivity |].
  split; [| apply report_well_formed].
  repeat constructor; intros field Hfield; cbn [In] in Hfield;
    repeat (destruct Hfield as [<- | Hfield]; [eexists; reflexivity |]);
    contradiction.
Qed.

(* ===================================================================== *)
(** ** What the encoder writes, for any value *)
(* ===================================================================== *)

(** A property of texts that holds of every piece the encoder writes and
    of the concatenation of two texts it holds of, holds of every
    encoding. *)
Section EncoderClosure.

Variable Q : string -> Prop.
Variable indent : string.

Hypothesis Q_append : forall a b : string, Q a -> Q b -> Q (a ++ b).
Hypothesis Q_empty : Q "".
Hypothesis Q_char :
  forall c : ascii,
    In c ["["; "]"; "{"; "}"; ","; ":"; " "; LF]%char -> Q (String c "").
Hypothesis Q_indent : forall k : Z, Q (str_mul indent k).
Hypothesis Q_string : forall s : string, Q (encode_basestring_ascii s).

Lemma Q_token (c : ascii) (s : string) :
  In c ["["; "]"; "{"; "}"; ","; ":"; " "; LF]%char -> Q s -> Q (String c s).
Proof.
  intros Hc Hs. change (String c s) with (String c "" ++ s).
  apply Q_append; [apply Q_char; exact Hc | exact Hs].
Qed.

Lemma list_loop_closed (encode : value -> string) (separator : string)
      (lst : list value) :
  Q separator ->
  Forall (fun v => Q (encode v)) lst ->
  forall first : bool, Q (iterencode_list_loop encode separator first lst).
Proof.
  intros Hsep Hall. induction Hall as [| x lst Hx _ IH]; intros first.
  - exact Q_empty.
  - cbn [iterencode_list_loop].
    apply Q_append; [destruct first; [exact Q_empty | exact Hsep] |].
    apply Q_append; [exact Hx | apply IH].
Qed.

Lemma dict_loop_closed (encode : value -> string) (separator : string)
      (items : list (string * value)) :
  Q separator ->
  Forall (fun kv => Q (encode (snd kv))) items ->
  forall first : bool, Q (iterencode_dict_loop encode separator first items).
Proof.
  intros Hsep Hall. induction Hall as [| [k x] items Hx _ IH]; intros first.
  - exact Q_empty.
  - cbn [iterencode_dict_loop snd] in *.
    apply Q_append; [destruct first; [exact Q_empty | exact Hsep] |].
    apply Q_append; [apply Q_string |].
    apply Q_append; [apply Q_token; [cbn [In]; tauto | apply Q_char; cbn [In]; tauto] |].
    apply Q_append; [exact Hx | apply IH].
Qed.

Lemma iterencode_closed (v : value) :
  forall level : nat, Q (iterencode indent level v).
Proof.
  induction v as [s | lst IH | items IH] using value_induction; intros level.
  - apply Q_string.
  - destruct lst as [| x lst].
    + cbn [iterencode]. apply Q_token; [cbn [In]; tauto | apply Q_char; cbn [In]; tauto].
    + cbn [iterencode].
      apply Q_append; [apply Q_char; cbn [In]; tauto |].
      apply Q_append; [apply Q_append; [apply Q_char; cbn [In]; tauto | apply Q_indent] |].
      apply Q_append.
      * apply list_loop_closed.
        -- apply Q_append; [apply Q_char; cbn [In]; tauto |].
           apply Q_append; [apply Q_char; cbn [In]; tauto | apply Q_indent].
        -- eapply Forall_impl; [| exact IH]. intros a Ha. apply Ha.
      * apply Q_append; [apply Q_char; cbn [In]; tauto |].
        apply Q_append; [apply Q_indent | apply Q_char; cbn [In]; tauto].
  - destruct items as [| kv items].
    + cbn [iterencode]. apply Q_token; [cbn [In]; tauto | apply Q_char; cbn [In]; tauto].
    + cbn [iterencode].
      apply Q_append; [apply Q_char; cbn [In]; tauto |].
      apply Q_append; [apply Q_append; [apply Q_char; cbn [In]; tauto | apply Q_indent] |].
      apply Q_append.
      * apply dict_loop_closed.
        -- apply Q_append; [apply Q_char; cbn [In]; tauto |].
           apply Q_append; [apply Q_char; cbn [In]; tauto | apply Q_indent].
        -- eapply Forall_impl; [| exact IH]. intros a Ha. apply Ha.
      * apply Q_append; [apply Q_char; cbn [In]; tauto |].
        apply Q_append; [apply Q_indent | apply Q_char; cbn [In]; tauto].
Qed.

End EncoderClosure.

Lemma all_chars_append (p : ascii -> bool) (a b : string) :
  all_chars p (a ++ b) = (all_chars p a && all_chars p b)%bool.
Proof.
  induction a as [| c a IH]; cbn [append all_chars]; [reflexivity |].
  now rewrite IH, andb_assoc.
Qed.

Lemma all_chars_impl (p q : ascii -> bool) (s : string) :
  (forall c, p c = true -> q c = true) ->
  all_chars p s = true -> all_chars q s = true.
Proof.
  intros Hpq. induction s as [| c s IH]; cbn [all_chars]; [reflexivity |].
  intros H. apply andb_true_iff in H as [Hc Hs].
  now rewrite (Hpq c Hc), (IH Hs).
Qed.

Lemma all_chars_str_mul (p : ascii -> bool) (s : string) (k : Z) :
  all_chars p s = true -> all_chars p (str_mul s k) = true.
Proof.
  intros Hs. unfold str_mul.
  induction (Z.to_nat k) as [| n IH]; [reflexivity |].
  cbn [repeat String.concat].
  destruct (repeat s n) as [| x xs].
  - exact Hs.
  - cbn [append]. now rewrite all_chars_append, Hs, IH.
Qed.

(** Whatever the character, its escape is made of printable ASCII only. *)
Lemma escape_char_printable (c : ascii) :
  all_chars printable (escape_char c) = true.
Proof.
  destruct c as [[] [] [] [] [] [] [] []]; reflexivity.
Qed.

Lemma escape_printable (s : string) : all_chars printable (escape s) = true.
Proof.
  induction s as [| c s IH]; [reflexivity |].
  cbn [escape]. now rewrite all_chars_append, escape_char_printable, IH.
Qed.

Lemma encode_basestring_ascii_printable (s : string) :
  all_chars printable (encode_basestring_ascii s) = true.
Proof.
  unfold encode_basestring_ascii. cbn [all_chars].
  now rewrite all_chars_append, escape_printable.
Qed.

Lemma printable_is_printable_or_lf (c : ascii) :
  printable c = true -> printable_or_lf c = true.
Proof. intros H. unfold printable_or_lf. rewrite H. apply orb_true_r. Qed.

Lemma printable_is_not_lf (c : ascii) :
  printable c = true -> negb (Ascii.eqb c LF) = true.
Proof.
  intros H. destruct (Ascii.eqb_spec c LF) as [-> | _]; [discriminate H | reflexivity].
Qed.

(** X6: whatever the value and the indent width, the text [json.dumps]
    writes holds only printable ASCII characters and line feeds; so does
    everything the printing block writes around it. *)
Theorem output_is_ascii :
  (forall (v : value) (n : Z),
      all_chars printable_or_lf (Json.dumps v n) = true) /\
  (forall (results : value) (w : world),
      exists out : string,
        runStateT (print_report results) w
        = inr (tt, mkWorld (stdout w ++ out) (slept w)) /\
        all_chars printable_or_lf out = true).
Proof.
  assert (Hdumps : forall (v : value) (n : Z),
             all_chars printable_or_lf (Json.dumps v n) = true).
  { intros v n. unfold Json.dumps.
    apply (iterencode_closed (fun s => all_chars printable_or_lf s = true)).
    - intros a b Ha Hb. now rewrite all_chars_append, Ha, Hb.
    - reflexivity.
    - intros c Hc. cbn [In] in Hc.
      repeat (destruct Hc as [<- | Hc]; [reflexivity |]). contradiction.
    - intros k. apply all_chars_str_mul, all_chars_str_mul. reflexivity.
    - intros s. eapply all_chars_impl;
        [exact printable_is_printable_or_lf | apply encode_basestring_ascii_printable]. }
  split; [exact Hdumps |].
  intros results w. eexists. split; [apply print_report_run |].
  rewrite !all_chars_append, Hdumps. reflexivity.
Qed.

(** A text without line feed starts no new line. *)
Lemma no_line_starts_mid_line (c0 : ascii) (s : string) :
  all_chars (fun c => negb (Ascii.eqb c LF)) s = true ->
  no_line_starts_with c0 false s = true.
Proof.
  induction s as [| c s IH]; cbn [all_chars no_line_starts_with]; [reflexivity |].
  intros H. apply andb_true_iff in H as [Hc Hs].
  apply negb_true_iff in Hc. rewrite Hc. cbn [andb negb]. apply IH, Hs.
Qed.

Lemma no_line_starts_append (c0 : ascii) (a b : string) :
  (forall bol, no_line_starts_with c0 bol b = true) ->
  forall bol,
    no_line_starts_with c0 bol a = true ->
    no_line_starts_with c0 bol (a ++ b) = true.
Proof.
  intros Hb. induction a as [| c a IH]; intros bol Ha; cbn [append].
  - apply Hb.
  - cbn [no_line_starts_with] in *.
    apply andb_true_iff in Ha as [Hc Ha].
    rewrite Hc. cbn [andb]. apply IH, Ha.
Qed.

Lemma banner_free_append (a b : string) :
  banner_free a -> banner_free b -> banner_free (a ++ b).
Proof.
  intros Ha Hb bol. apply no_line_starts_append; [exact Hb | apply Ha].
Qed.

Lemma banner_free_str_mul (s : string) (k : Z) :
  banner_free s -> banner_free (str_mul s k).
Proof.
  intros Hs. unfold str_mul.
  induction (Z.to_nat k) as [| n IH]; [intros bol; reflexivity |].
  cbn [repeat String.concat].
  destruct (repeat s n) as [| x xs].
  - exact Hs.
  - cbn [append]. apply banner_free_append; [exact Hs | exact IH].
Qed.

(** A string token starts with a quote and has no line feed inside. *)
Lemma banner_free_string (s : string) : banner_free (encode_basestring_ascii s).
Proof.
  intros bol. unfold encode_basestring_ascii. cbn [no_line_starts_with].
  change (Ascii.eqb DQUOTE "=") with false.
  change (Ascii.eqb DQUOTE LF) with false.
  rewrite andb_false_r. cbn [negb andb].
  apply no_line_starts_mid_line.
  rewrite all_chars_append. cbn [all_chars].
  change (Ascii.eqb DQUOTE LF) with false. cbn [negb andb].
  rewrite andb_true_r.
  eapply all_chars_impl; [exact printable_is_not_lf | apply escape_printable].
Qed.

(** Every line of a text is as [no_line_starts_with] tells, the first one
    only when the text starts a line. *)
Lemma lines_no_line_starts_with (c0 : ascii) (s : string) :
  forall bol : bool,
    no_line_starts_with c0 bol s = true ->
    match lines s with
    | [] => True
    | l :: ls =>
        (bol = true -> forall rest, l <> String c0 rest) /\
        Forall (fun l' => forall rest, l' <> String c0 rest) ls
    end.
Proof.
  induction s as [| c s IH]; intros bol H; cbn [lines]; [exact I |].
  cbn [no_line_starts_with] in H. apply andb_true_iff in H as [Hc Hs].
  specialize (IH _ Hs).
  destruct (Ascii.eqb_spec c LF) as [-> | Hlf].
  - split; [intros _ rest; discriminate |].
    destruct (lines s) as [| l ls]; [constructor |].
    destruct IH as [Hl Hls]. constructor; [exact (Hl eq_refl) | exact Hls].
  - assert (Hhead : bol = true -> forall l rest, String c l <> String c0 rest).
    { intros -> l rest E. injection E as -> _.
      rewrite Ascii.eqb_refl in Hc. discriminate Hc. }
    destruct (lines s) as [| l ls].
    + split; [intros Hbol rest; apply Hhead, Hbol | constructor].
    + destruct IH as [_ Hls]. split; [intros Hbol rest; apply Hhead, Hbol | exact Hls].
Qed.

(** X7: whatever the value and the indent width, no line of the text
    [json.dumps] writes starts with "="; so the banner is none of its lines,
    and the banner lines of the output mark off the report text. *)
Theorem report_text_has_no_banner_line :
  forall (v : value) (n : Z),
    Forall not_banner_like (lines (Json.dumps v n)) /\
    ~ In banner (lines (Json.dumps v n)).
Proof.
  intros v n.
  assert (Hfree : banner_free (Json.dumps v n)).
  { unfold Json.dumps. apply (iterencode_closed banner_free).
    - exact banner_free_append.
    - intros bol. reflexivity.
    - intros c Hc bol. cbn [In] in Hc.
      repeat (destruct Hc as [<- | Hc]; [destruct bol; reflexivity |]). contradiction.
    - intros k. apply banner_free_str_mul, banner_free_str_mul.
      intros bol. destruct bol; reflexivity.
    - exact banner_free_string. }
  pose proof (lines_no_line_starts_with "=" _ true (Hfree true)) as Hlines.
  assert (Hall : Forall not_banner_like (lines (Json.dumps v n))).
  { destruct (lines (Json.dumps v n)) as [| l ls]; [constructor |].
    destruct Hlines as [Hl Hls]. constructor; [exact (Hl eq_refl) | exact Hls]. }
  split; [exact Hall |].
  intros Hin. rewrite Forall_forall in Hall.
  apply (Hall banner Hin "======================================="). reflexivity.
Qed.

(* ===================================================================== *)
(** ** Reading any report text back *)
(* ===================================================================== *)

(** X8: for every value whose dictionaries repeat no key and every indent
    width, the text [json.dumps] writes is read back as the value, with or
    without the line feed [print] puts after it. *)
Theorem any_value_round_trip :
  forall (v : value) (n : Z),
    well_formed v ->
    Json.loads (Json.dumps v n) = Some v /\
    Json.loads (Json.dumps v n ++ nl) = Some v.
Proof.
  intros v n Hwf. split; [apply loads_dumps, Hwf |].
  unfold Json.loads, Json.dumps.
  set (indent := str_mul " " n).
  assert (Hblank : blank indent) by (apply blank_str_mul, blank_space).
  pose proof (size_le_length indent v 0) as Hsize.
  rewrite skip_ws_iterencode.
  rewrite (iterencode_parses_back indent Hblank v Hwf)
    by (rewrite length_append; lia).
  reflexivity.
Qed.

Lemma any_value_round_trip_witness :
  well_formed (List [Str "a"; Dict [("k", Str "v")]]) /\
  Json.loads (Json.dumps (List [Str "a"; Dict [("k", Str "v")]]) 4)
  = Some (List [Str "a"; Dict [("k", Str "v")]]) /\
  Json.loads (Json.dumps (List [Str "a"; Dict [("k", Str "v")]]) 4 ++ nl)
  = Some (List [Str "a"; Dict [("k", Str "v")]]).
Proof.
  assert (Hwf : well_formed (List [Str "a"; Dict [("k", Str "v")]])).
  { repeat (constructor; cbn [map fst snd]). intros []. }
  split; [exact Hwf |].
  apply (any_value_round_trip (List [Str "a"; Dict [("k", Str "v")]]) 4 Hwf).
Defined.

(** X9: two different values whose dictionaries repeat no key never have
    the same text, whatever the two indent widths. *)
Theorem distinct_values_distinct_texts :
  forall (v v' : value) (n n' : Z),
    well_formed v -> well_formed v' ->
    v <> v' ->
    Json.dumps v n <> Json.dumps v' n'.
Proof.
  intros v v' n n' Hwf Hwf' Hneq E.
  pose proof (loads_dumps v n Hwf) as Hv.
  rewrite E, (loads_dumps v' n' Hwf') in Hv.
  injection Hv as ->. now apply Hneq.
Qed.

Lemma distinct_values_distinct_texts_witness :
  well_formed (Str "Events") /\ well_formed (List [Str "Events"]) /\
  Str "Events" <> List [Str "Events"] /\
  Json.dumps (Str "Events") 2 <> Json.dumps (List [Str "Events"]) 0.
Proof.
  assert (Hwf : well_formed (Str "Events")) by constructor.
  assert (Hwf' : well_formed (List [Str "Events"])) by (repeat constructor).
  assert (Hneq : Str "Events" <> List [Str "Events"]) by discriminate.
  repeat split; [exact Hwf | exact Hwf' | exact Hneq |].
  exact (distinct_values_distinct_texts _ _ 2 0 Hwf Hwf' Hneq).
Defined.

(** A character the encoder writes as it is: printable ASCII other than
    the quote and the backslash. *)
Lemma escape_char_plain (c : ascii) :
  (printable c && negb (Ascii.eqb c DQUOTE) && negb (Ascii.eqb c BACKSLASH))%bool = true ->
  escape_char c = String c "".
Proof.
  destruct c as [[] [] [] [] [] [] [] []]; intros H;
    first [reflexivity | discriminate H].
Qed.

(** X10: a string of printable ASCII characters without quote and
    backslash is written as it is, between two quotes. *)
Theorem plain_string_written_verbatim :
  forall s : string,
    all_chars (fun c => printable c && negb (Ascii.eqb c DQUOTE)
                        && negb (Ascii.eqb c BACKSLASH))%bool s = true ->
    forall n : Z, Json.dumps (Str s) n = quoted s.
Proof.
  intros s Hs n. unfold Json.dumps, quoted. cbn [iterencode].
  unfold encode_basestring_ascii. do 2 f_equal.
  induction s as [| c s IH]; [reflexivity |].
  cbn [all_chars] in Hs. apply andb_true_iff in Hs as [Hc Hs].
  cbn [escape]. now rewrite (escape_char_plain c Hc), (IH Hs).
Qed.

Lemma plain_string_written_verbatim_witness :
  all_chars (fun c => printable c && negb (Ascii.eqb c DQUOTE)
                      && negb (Ascii.eqb c BACKSLASH))%bool
            "Disorganized Opening/Closing ceremonies" = true /\
  Json.dumps (Str "Disorganized Opening/Closing ceremonies") 2
  = quoted "Disorganized Opening/Closing ceremonies".
Proof.
  split; [reflexivity |].
  apply (plain_string_written_verbatim "Disorganized Opening/Closing ceremonies").
  reflexivity.
Defined.
